(** * Fameex REST connector: request signing and request construction

    A shallow embedding of [api.py]: the signature generator, the generic
    request sender and the order and asset operations built on it, together
    with the library routines the module calls ([hmac]/[hashlib.sha256],
    [json.dumps], [urllib.parse.urlencode], the [requests] calls) at the
    level of detail the module depends on.

    Conventions.
    - A Python [str] is a [string]; a character stands for the code point
      of the same number (code points below 256).  [str.upper] is exact
      on every such character but the two whose uppercase form lies beyond
      code point 255 (181 and 255), which [upper_exact] sets apart.
    - [bytes] are lists of integers in [0, 255].
    - A 32-bit word is a [Z] kept below [2^32] by masking.
    - A Python [float] is carried by its [repr] text (finite floats).
    - The clock and the network are the two effects; they live in [World]. *)

From Stdlib Require Import ZArith List String Ascii Lia.
From Stdlib Require Import Decimal DecimalString DecimalPos DecimalZ.
From stdpp Require Import base strings gmap.
Import ListNotations.

Local Open Scope string_scope.
Local Open Scope list_scope.
Local Open Scope Z_scope.

(** ** Bytes and text *)

Definition bytes := list Z.

Definition ord (c : ascii) : Z := Z.of_N (N_of_ascii c).
Definition chr (n : Z) : ascii := ascii_of_N (Z.to_N (n mod 256)).

(** [str.encode('utf-8')] on code points below 256. *)
Definition utf8_char (c : ascii) : bytes :=
  let n := ord c in
  if n <? 128 then [n] else [192 + n / 64; 128 + n mod 64].

Fixpoint encode_utf8 (s : string) : bytes :=
  match s with
  | EmptyString => []
  | String c r => utf8_char c ++ encode_utf8 r
  end.

(** ** SHA-256 (FIPS 180-4), as [hashlib.sha256] computes it *)

Module SHA256.

Definition mask32 : Z := 4294967295.
Definition add32 (x y : Z) : Z := Z.land (x + y) mask32.
Definition rotr (n x : Z) : Z :=
  Z.lor (Z.shiftr x n) (Z.land (Z.shiftl x (32 - n)) mask32).
Definition shr (n x : Z) : Z := Z.shiftr x n.
Definition not32 (x : Z) : Z := Z.lxor x mask32.

Definition Ch (x y z : Z) : Z := Z.lxor (Z.land x y) (Z.land (not32 x) z).
Definition Maj (x y z : Z) : Z :=
  Z.lxor (Z.lxor (Z.land x y) (Z.land x z)) (Z.land y z).
Definition bsig0 (x : Z) : Z := Z.lxor (Z.lxor (rotr 2 x) (rotr 13 x)) (rotr 22 x).
Definition bsig1 (x : Z) : Z := Z.lxor (Z.lxor (rotr 6 x) (rotr 11 x)) (rotr 25 x).
Definition ssig0 (x : Z) : Z := Z.lxor (Z.lxor (rotr 7 x) (rotr 18 x)) (shr 3 x).
Definition ssig1 (x : Z) : Z := Z.lxor (Z.lxor (rotr 17 x) (rotr 19 x)) (shr 10 x).

(** The round constants, in decimal. *)
Definition K : list Z :=
  [ 1116352408; 1899447441; 3049323471; 3921009573; 961987163; 1508970993;
    2453635748; 2870763221; 3624381080; 310598401; 607225278; 1426881987;
    1925078388; 2162078206; 2614888103; 3248222580; 3835390401; 4022224774;
    264347078; 604807628; 770255983; 1249150122; 1555081692; 1996064986;
    2554220882; 2821834349; 2952996808; 3210313671; 3336571891; 3584528711;
    113926993; 338241895; 666307205; 773529912; 1294757372; 1396182291;
    1695183700; 1986661051; 2177026350; 2456956037; 2730485921; 2820302411;
    3259730800; 3345764771; 3516065817; 3600352804; 4094571909; 275423344;
    430227734; 506948616; 659060556; 883997877; 958139571; 1322822218;
    1537002063; 1747873779; 1955562222; 2024104815; 2227730452; 2361852424;
    2428436474; 2756734187; 3204031479; 3329325298 ].

(** The eight working registers, and the running hash value. *)
Record regs : Type := Regs
  { ra : Z; rb : Z; rc : Z; rd : Z; re : Z; rf : Z; rg : Z; rh : Z }.

Definition H0 : regs :=
  Regs 0x6a09e667 0xbb67ae85 0x3c6ef372 0xa54ff53a
       0x510e527f 0x9b05688c 0x1f83d9ab 0x5be0cd19.

(** The message schedule is kept as a window of the last sixteen words:
    its head is W[t], and W[t+16] is appended as the round is done. *)
Definition schedule_next (w : list Z) : Z :=
  add32 (add32 (ssig1 (nth 14%nat w 0)) (nth 9%nat w 0))
        (add32 (ssig0 (nth 1%nat w 0)) (nth 0%nat w 0)).

Definition round (st : regs * list Z) (k : Z) : regs * list Z :=
  let '(r, w) := st in
  let t1 := add32 (add32 (add32 (rh r) (bsig1 (re r)))
                         (add32 (Ch (re r) (rf r) (rg r)) k))
                  (nth 0%nat w 0) in
  let t2 := add32 (bsig0 (ra r)) (Maj (ra r) (rb r) (rc r)) in
  (Regs (add32 t1 t2) (ra r) (rb r) (rc r) (add32 (rd r) t1) (re r) (rf r) (rg r),
   tl w ++ [schedule_next w]).

Definition compress (h : regs) (block : list Z) : regs :=
  let r := fst (fold_left round K (h, block)) in
  Regs (add32 (ra h) (ra r)) (add32 (rb h) (rb r))
       (add32 (rc h) (rc r)) (add32 (rd h) (rd r))
       (add32 (re h) (re r)) (add32 (rf h) (rf r))
       (add32 (rg h) (rg r)) (add32 (rh h) (rh r)).

(** Big-endian grouping of bytes into 32-bit words. *)
Fixpoint be_words (bs : bytes) : list Z :=
  match bs with
  | b0 :: b1 :: b2 :: b3 :: r =>
      (b0 * 16777216 + b1 * 65536 + b2 * 256 + b3) :: be_words r
  | _ => []
  end.

Definition be32 (w : Z) : bytes :=
  [ (w / 16777216) mod 256; (w / 65536) mod 256; (w / 256) mod 256; w mod 256 ].

Definition be64 (n : Z) : bytes :=
  be32 ((n / 4294967296) mod 4294967296) ++ be32 (n mod 4294967296).

(** Padding: a one bit, zeros up to 56 modulo 64, the bit length on 64 bits. *)
Definition pad (msg : bytes) : bytes :=
  let len := Z.of_nat (List.length msg) in
  msg ++ [128] ++ repeat 0 (Z.to_nat ((55 - len) mod 64)) ++ be64 (8 * len).

Fixpoint hash_blocks (n : nat) (h : regs) (ws : list Z) : regs :=
  match n with
  | O => h
  | S n' => hash_blocks n' (compress h (firstn 16 ws)) (skipn 16 ws)
  end.

Definition digest_bytes (h : regs) : bytes :=
  be32 (ra h) ++ be32 (rb h) ++ be32 (rc h) ++ be32 (rd h) ++
  be32 (re h) ++ be32 (rf h) ++ be32 (rg h) ++ be32 (rh h).

Definition sha256 (msg : bytes) : bytes :=
  let ws := be_words (pad msg) in
  digest_bytes (hash_blocks (List.length ws / 16) H0 ws).

End SHA256.

(** ** HMAC (RFC 2104) with SHA-256, as [hmac.new(key, msg, hashlib.sha256)] *)

Module HMAC.

Definition block_size : nat := 64.

Definition block_key (key : bytes) : bytes :=
  let k := if (Nat.ltb block_size (List.length key)) then SHA256.sha256 key else key in
  k ++ repeat 0 (block_size - List.length k).

Definition xor_pad (p : Z) (k : bytes) : bytes := map (fun b => Z.lxor b p) k.

Definition digest (key msg : bytes) : bytes :=
  let k := block_key key in
  SHA256.sha256 (xor_pad 92 k ++ SHA256.sha256 (xor_pad 54 k ++ msg)).

(** [hexdigest]: two lowercase hexadecimal digits per byte. *)
Definition hexdigit (n : Z) : ascii :=
  nth (Z.to_nat (n mod 16))
      (list_ascii_of_string "0123456789abcdef") "0"%char.

Fixpoint hex (bs : bytes) : string :=
  match bs with
  | [] => EmptyString
  | b :: r => String (hexdigit (b / 16)) (String (hexdigit b) (hex r))
  end.

Definition hexdigest (key msg : bytes) : string := hex (digest key msg).

End HMAC.

(** ** Python values and the text routines the module calls *)

(** The values a request field holds. *)
Inductive pyval : Type :=
| PNone
| PBool (b : bool)
| PInt (n : Z)
| PFloat (repr : string)
| PStr (s : string).

(** A [dict] built by a literal: its items, in insertion order. *)
Definition pydict : Type := list (string * pyval).

(** The [body] argument of [generate_signature]: a mapping or a string. *)
Inductive pybody : Type :=
| BodyDict (d : pydict)
| BodyStr (s : string).

(** Truth value of an optional body: [None], [{}] and the empty string are false. *)
Definition truthy (body : option pybody) : bool :=
  match body with
  | None => false
  | Some (BodyDict []) => false
  | Some (BodyDict (_ :: _)) => true
  | Some (BodyStr EmptyString) => false
  | Some (BodyStr (String _ _)) => true
  end.

(** [str(n)] for an [int]. *)
Definition str_int (n : Z) : string := NilZero.string_of_int (Z.to_int n).

(** [str(v)]. *)
Definition py_str (v : pyval) : string :=
  match v with
  | PNone => "None"
  | PBool true => "True"
  | PBool false => "False"
  | PInt n => str_int n
  | PFloat r => r
  | PStr s => s
  end.

(** [str.upper], character by character: the lowercase letters a-z and
    those of the range 224-254 (but the division sign, 247) move down by
    32; the sharp s (223) becomes SS.  The micro sign (181) and the y with
    diaeresis (255) have their uppercase forms at code points 924 and 376,
    beyond the characters a [string] holds: they are left as they are, and
    [upper_exact] tells the strings free of them. *)
Definition upper_char (c : ascii) : ascii :=
  let n := ord c in
  if (97 <=? n) && (n <=? 122) then chr (n - 32)
  else if (224 <=? n) && (n <=? 254) && negb (n =? 247) then chr (n - 32)
  else c.

Definition upper_point (c : ascii) : string :=
  if ord c =? 223 then "SS" else String (upper_char c) EmptyString.

Fixpoint upper (s : string) : string :=
  match s with
  | EmptyString => EmptyString
  | String c r => upper_point c +:+ upper r
  end.

Fixpoint upper_exact (s : string) : bool :=
  match s with
  | EmptyString => true
  | String c r => negb (ord c =? 181) && negb (ord c =? 255) && upper_exact r
  end.

(** [str(n)] and [json.dumps] refuse an [int] of more than 4300 decimal
    digits (the interpreter's default limit) with a [ValueError]. *)
Definition int_within_limit (n : Z) : bool := Z.abs n <? 10 ^ 4300.

Definition value_serializable (v : pyval) : bool :=
  match v with
  | PInt n => int_within_limit n
  | _ => true
  end.

(** The bodies [json.dumps] and [urlencode] turn into text without
    complaint, among those [pydict] holds. *)
Definition serializable (body : option pydict) : bool :=
  match body with
  | None => true
  | Some d => forallb (fun kv => value_serializable (snd kv)) d
  end.

Definition hex_lower (n : Z) : ascii := HMAC.hexdigit n.
Definition hex_upper (n : Z) : ascii := upper_char (HMAC.hexdigit n).

Definition dquote : ascii := chr 34.
Definition backslash : ascii := chr 92.
Definition char (c : ascii) : string := String c EmptyString.

(** *** [json.dumps] with its defaults ([ensure_ascii], [", "] and [": "]) *)

Definition json_escape_char (c : ascii) : string :=
  let n := ord c in
  if n =? 34 then String backslash (char dquote)
  else if n =? 92 then String backslash (char backslash)
  else if n =? 10 then String backslash "n"
  else if n =? 13 then String backslash "r"
  else if n =? 9 then String backslash "t"
  else if n =? 8 then String backslash "b"
  else if n =? 12 then String backslash "f"
  else if (32 <=? n) && (n <=? 126) then char c
  else String backslash
         ("u00" +:+ String (hex_lower (n / 16)) (char (hex_lower n))).

Fixpoint json_escape (s : string) : string :=
  match s with
  | EmptyString => EmptyString
  | String c r => json_escape_char c +:+ json_escape r
  end.

Definition json_string (s : string) : string :=
  String dquote (json_escape s +:+ char dquote).

Definition json_value (v : pyval) : string :=
  match v with
  | PNone => "null"
  | PBool true => "true"
  | PBool false => "false"
  | PInt n => str_int n
  | PFloat r => r
  | PStr s => json_string s
  end.

Definition json_item (kv : string * pyval) : string :=
  json_string (fst kv) +:+ ": " +:+ json_value (snd kv).

Fixpoint join (sep : string) (l : list string) : string :=
  match l with
  | [] => EmptyString
  | [x] => x
  | x :: r => x +:+ sep +:+ join sep r
  end.

Definition json_dumps (d : pydict) : string :=
  "{" +:+ join ", " (map json_item d) +:+ "}".

(** *** [urllib.parse.urlencode] of a mapping, through [quote_plus] *)

Definition always_safe (n : Z) : bool :=
  ((65 <=? n) && (n <=? 90)) || ((97 <=? n) && (n <=? 122)) ||
  ((48 <=? n) && (n <=? 57)) ||
  (n =? 95) || (n =? 46) || (n =? 45) || (n =? 126).

Definition quote_byte (b : Z) : string :=
  if always_safe b then char (chr b)
  else if b =? 32 then "+"
  else String "%" (String (hex_upper (b / 16)) (char (hex_upper b))).

Fixpoint quote_bytes (bs : bytes) : string :=
  match bs with
  | [] => EmptyString
  | b :: r => quote_byte b +:+ quote_bytes r
  end.

Definition quote_plus (s : string) : string := quote_bytes (encode_utf8 s).

Definition urlencode_item (kv : string * pyval) : string :=
  quote_plus (fst kv) +:+ "=" +:+ quote_plus (py_str (snd kv)).

Definition urlencode (d : pydict) : string :=
  join "&" (map urlencode_item d).

(** ** Effects: the clock, the network and the log *)

(** A decoded response document ([response.json()]). *)
#[warnings="-register-all"] Inductive json : Type :=
| JNull
| JBool (b : bool)
| JInt (n : Z)
| JFloat (repr : string)
| JStr (s : string)
| JList (l : list json)
| JDict (d : list (string * json)).

(** What [requests.post]/[requests.get] is called with. *)
Record Request : Type := mkRequest
  { http_verb : string;
    url : string;
    headers : list (string * string);
    json_arg : option pydict }.

(** The payload [requests] transmits for a [json=] argument that is not
    [None]: its [json.dumps] text (ASCII, so the UTF-8 bytes are the
    characters).  An empty mapping is not [None]: its text is sent. *)
Definition wire_body (r : Request) : option string :=
  option_map json_dumps (json_arg r).

(** What [response.json()] raises on a body that is not JSON: a
    [JSONDecodeError] that is a [RequestException] (requests 2.27 and
    later), or one that is only a [ValueError] (earlier versions). *)
Inductive decode_failure : Type :=
| AsRequestException (complaint : string)
| AsValueError (complaint : string).

(** The final response: its status line, its address, and its body as
    [response.json()] decodes it, or the failure of the decoder. *)
Record Response : Type := mkResponse
  { status_code : Z;
    reason : string;
    resp_url : string;
    decoded : decode_failure + json }.

Inductive event : Type :=
| Clock (ms : Z)
| Http (r : Request)
| LogError (msg : string).

(** [clock_ms] is what [int(time.time() * 1000)] evaluates to; [server]
    answers a request with a response, or with the text of the transport
    failure ([ConnectionError], [Timeout], ...); [trace] records the
    effects performed, oldest first. *)
Record World : Type := mkWorld
  { clock_ms : Z;
    server : Request -> string + Response;
    trace : list event }.

Inductive exn : Type :=
| KeyError (key : string)
| ValueError (msg : string)
| RequestException (msg : string)
| FameexAPIException (msg : string).

Inductive result (A : Type) : Type :=
| Return (a : A)
| Raise (e : exn).
Arguments Return {A} a.
Arguments Raise {A} e.

Definition M (A : Type) : Type := World -> result A * World.

Definition ret {A} (a : A) : M A := fun w => (Return a, w).
Definition raise {A} (e : exn) : M A := fun w => (Raise e, w).
Definition bind {A B} (m : M A) (k : A -> M B) : M B :=
  fun w => match m w with
           | (Return a, w') => k a w'
           | (Raise e, w') => (Raise e, w')
           end.
Definition try_except {A} (m : M A) (handler : exn -> M A) : M A :=
  fun w => match m w with
           | (Return a, w') => (Return a, w')
           | (Raise e, w') => handler e w'
           end.

Notation "x <- c ;; k" := (bind c (fun x => k))
  (at level 100, c at next level, right associativity).

Definition emit (e : event) : M unit :=
  fun w => (Return tt, mkWorld (clock_ms w) (server w) (trace w ++ [e])).

(** [int(time.time() * 1000)] *)
Definition time_ms : M Z :=
  fun w => (Return (clock_ms w),
            mkWorld (clock_ms w) (server w) (trace w ++ [Clock (clock_ms w)])).

(** [requests.post]/[requests.get]: one exchange with the server. *)
Definition http (r : Request) : M Response :=
  fun w => let w' := mkWorld (clock_ms w) (server w) (trace w ++ [Http r]) in
           match server w r with
           | inl cause => (Raise (RequestException cause), w')
           | inr resp => (Return resp, w')
           end.

Definition requests_post (url : string) (json : option pydict)
    (headers : list (string * string)) : M Response :=
  http (mkRequest "POST" url headers json).

Definition requests_get (url : string) (headers : list (string * string))
    : M Response :=
  http (mkRequest "GET" url headers None).

(** [Response.raise_for_status]: an [HTTPError] for the 4xx and 5xx codes. *)
Definition raise_for_status (r : Response) : M unit :=
  if (400 <=? status_code r) && (status_code r <? 500) then
    raise (RequestException (str_int (status_code r) +:+ " Client Error: "
                             +:+ reason r +:+ " for url: " +:+ resp_url r))
  else if (500 <=? status_code r) && (status_code r <? 600) then
    raise (RequestException (str_int (status_code r) +:+ " Server Error: "
                             +:+ reason r +:+ " for url: " +:+ resp_url r))
  else ret tt.

(** [Response.json]: the decoded body, or the decoder's exception. *)
Definition response_json (r : Response) : M json :=
  match decoded r with
  | inr j => ret j
  | inl (AsRequestException complaint) => raise (RequestException complaint)
  | inl (AsValueError complaint) => raise (ValueError complaint)
  end.

Definition logger_error (msg : string) : M unit := emit (LogError msg).

(** ** The module *)

Definition BASE_URL : string := "https://openapi.fameex.net".
Definition CONTENT_TYPE : string := "application/json".

Record signature_data : Type := mkSignatureData
  { signature : string;
    timestamp : string }.

Module SignatureGenerator.

Record t : Type := mk
  { api_key : string;
    api_secret : bytes }.

Definition init (api_key api_secret : string) : t :=
  mk api_key (encode_utf8 api_secret).

(** The text that is signed, for a given timestamp. *)
Definition sign_payload (timestamp method request_path : string)
    (body : option pybody) : string :=
  let sign_payload := timestamp in
  let sign_payload := sign_payload +:+ upper method in
  let sign_payload := sign_payload +:+ request_path in
  if truthy body && String.eqb (upper method) "POST" then
    match body with
    | Some (BodyDict d) => sign_payload +:+ json_dumps d
    | Some (BodyStr s) => sign_payload +:+ s
    | None => sign_payload
    end
  else sign_payload.

Definition generate_signature (self : t) (method request_path : string)
    (body : option pybody) : M signature_data :=
  ms <- time_ms ;;
  let timestamp := str_int ms in
  let sign_payload := sign_payload timestamp method request_path body in
  let signature :=
    HMAC.hexdigest (api_secret self) (encode_utf8 sign_payload) in
  ret (mkSignatureData signature timestamp).

End SignatureGenerator.

Definition dict_truthy (body : option pydict) : bool :=
  truthy (option_map BodyDict body).

Definition send_request (method request_path : string) (body : option pydict)
    (api_key api_secret : string) : M json :=
  let signer := SignatureGenerator.init api_key api_secret in
  let request_path :=
    if String.eqb method "GET" && dict_truthy body
    then request_path +:+ "?" +:+ urlencode (default [] body)
    else request_path in
  signature_data <-
    SignatureGenerator.generate_signature signer method request_path
      (option_map BodyDict body) ;;
  let headers :=
    [ ("X-CH-APIKEY", api_key);
      ("X-CH-TS", timestamp signature_data);
      ("X-CH-SIGN", signature signature_data);
      ("Content-Type", CONTENT_TYPE) ] in
  let url := BASE_URL +:+ request_path in
  try_except
    (response <-
       (if String.eqb method "POST"
        then requests_post url body headers
        else requests_get url headers) ;;
     _ <- raise_for_status response ;;
     response_json response)
    (fun e =>
       match e with
       | RequestException msg =>
           _ <- logger_error ("API request failed: " +:+ msg) ;;
           raise (FameexAPIException ("API request failed: " +:+ msg))
       | _ => raise e
       end).

(** [d[key]] on the caller's mapping. *)
Definition getitem (d : gmap string pyval) (key : string) : M pyval :=
  match d !! key with
  | Some v => ret v
  | None => raise (KeyError key)
  end.

Module OrderManager.

Record t : Type := mk
  { api_key : string;
    api_secret : string }.

Definition place_order (self : t) (order : gmap string pyval) : M json :=
  let method := "POST" in
  let request_path := "/sapi/v1/order" in
  symbol <- getitem order "symbol" ;;
  volume <- getitem order "volume" ;;
  side <- getitem order "side" ;;
  type <- getitem order "type" ;;
  price <- getitem order "price" ;;
  let body :=
    [ ("symbol", symbol); ("volume", volume); ("side", side);
      ("type", type); ("price", price) ] in
  send_request method request_path (Some body) (api_key self) (api_secret self).

Definition cancel_order (self : t) (order : gmap string pyval) : M json :=
  let method := "POST" in
  let request_path := "/sapi/v1/cancel" in
  symbol <- getitem order "symbol" ;;
  order_id <- getitem order "order_id" ;;
  let body := [ ("symbol", symbol); ("orderId", order_id) ] in
  send_request method request_path (Some body) (api_key self) (api_secret self).

Definition open_orders (self : t) (params : gmap string pyval) : M json :=
  let method := "GET" in
  let request_path := "/sapi/v1/openOrders" in
  symbol <- getitem params "symbol" ;;
  limit <- getitem params "limit" ;;
  let body := [ ("symbol", symbol); ("limit", limit) ] in
  send_request method request_path (Some body) (api_key self) (api_secret self).

End OrderManager.

Module AssetManager.

Record t : Type := mk
  { api_key : string;
    api_secret : string }.

Definition balance (self : t) : M json :=
  let method := "GET" in
  let request_path := "/sapi/v1/account" in
  let body : pydict := [] in
  send_request method request_path (Some body) (api_key self) (api_secret self).

Definition account_balance (self : t) (params : gmap string pyval) : M json :=
  let method := "GET" in
  let request_path := "/sapi/v1/account/balance" in
  symbols <- getitem params "symbols" ;;
  let body := [ ("symbols", symbols) ] in
  send_request method request_path (Some body) (api_key self) (api_secret self).

End AssetManager.

(** ** What a call does, read off the trace *)

Definition result_of {A} (m : M A) (w : World) : result A := fst (m w).
Definition world_after {A} (m : M A) (w : World) : World := snd (m w).

(** The HTTP exchanges recorded in a trace. *)
Fixpoint requests_of (t : list event) : list Request :=
  match t with
  | [] => []
  | Http r :: t' => r :: requests_of t'
  | _ :: t' => requests_of t'
  end.

(** Value of a header, by name. *)
Fixpoint header (name : string) (hs : list (string * string)) : option string :=
  match hs with
  | [] => None
  | (n, v) :: hs' => if String.eqb n name then Some v else header name hs'
  end.

(** The request [send_request] hands to [requests], for a clock reading. *)
Definition issued_request (method request_path : string)
    (body : option pydict) (api_key api_secret : string) (ms : Z) : Request :=
  let request_path :=
    if String.eqb method "GET" && dict_truthy body
    then request_path +:+ "?" +:+ urlencode (default [] body)
    else request_path in
  let timestamp := str_int ms in
  mkRequest
    (if String.eqb method "POST" then "POST" else "GET")
    (BASE_URL +:+ request_path)
    [ ("X-CH-APIKEY", api_key);
      ("X-CH-TS", timestamp);
      ("X-CH-SIGN",
       HMAC.hexdigest (encode_utf8 api_secret)
         (encode_utf8
            (SignatureGenerator.sign_payload timestamp method request_path
               (option_map BodyDict body))));
      ("Content-Type", CONTENT_TYPE) ]
    (if String.eqb method "POST" then body else None).

(** The text of the [HTTPError] for a response in the 4xx or 5xx range. *)
Definition http_error_msg (r : Response) : string :=
  str_int (status_code r) +:+
  (if status_code r <? 500 then " Client Error: " else " Server Error: ") +:+
  reason r +:+ " for url: " +:+ resp_url r.

Definition is_error_status (c : Z) : bool := (400 <=? c) && (c <? 600).

(** How [send_request] ends, given the server's answer. *)
Definition failure (cause : string) : result json * list event :=
  (Raise (FameexAPIException ("API request failed: " +:+ cause)),
   [LogError ("API request failed: " +:+ cause)]).

Definition outcome (answer : string + Response) : result json * list event :=
  match answer with
  | inl cause => failure cause
  | inr r =>
      if is_error_status (status_code r) then failure (http_error_msg r)
      else match decoded r with
           | inr j => (Return j, [])
           | inl (AsRequestException complaint) => failure complaint
           | inl (AsValueError complaint) => (Raise (ValueError complaint), [])
           end
  end.

(** What is appended for the body, when something is. *)
Definition body_serialization (body : option pybody) : string :=
  match body with
  | Some (BodyDict d) => json_dumps d
  | Some (BodyStr s) => s
  | None => EmptyString
  end.

(** A string between double quotes. *)
Definition quoted (s : string) : string := String dquote (s +:+ char dquote).

(** Every digit of a [hexdigest]. *)
Definition hexchars : list ascii := list_ascii_of_string "0123456789abcdef".

(** Every string of [n] lowercase hexadecimal digits. *)
Fixpoint hexstrings (n : nat) : list string :=
  match n with
  | O => [EmptyString]
  | S n' => flat_map (fun c => map (String c) (hexstrings n')) hexchars
  end.

(** The operations that read required fields from the caller's mapping. *)
Inductive operation : Type :=
| PlaceOrder
| CancelOrder
| OpenOrders
| AccountBalance.

Definition required_fields (op : operation) : list string :=
  match op with
  | PlaceOrder => ["symbol"; "volume"; "side"; "type"; "price"]
  | CancelOrder => ["symbol"; "order_id"]
  | OpenOrders => ["symbol"; "limit"]
  | AccountBalance => ["symbols"]
  end.

Definition call (op : operation) (api_key api_secret : string)
    (params : gmap string pyval) : M json :=
  match op with
  | PlaceOrder =>
      OrderManager.place_order (OrderManager.mk api_key api_secret) params
  | CancelOrder =>
      OrderManager.cancel_order (OrderManager.mk api_key api_secret) params
  | OpenOrders =>
      OrderManager.open_orders (OrderManager.mk api_key api_secret) params
  | AccountBalance =>
      AssetManager.account_balance (AssetManager.mk api_key api_secret) params
  end.

(** The first required field the caller's mapping lacks, in the order the
    operation reads them. *)
Definition first_missing (op : operation) (params : gmap string pyval)
    : option string :=
  List.find (fun field => match params !! field with
                          | None => true
                          | Some _ => false
                          end)
            (required_fields op).

(** The characters [quote_plus] lets through or produces: the unreserved
    ones, [%] and [+]. *)
Definition query_char (c : ascii) : bool :=
  let n := ord c in always_safe n || (n =? 37) || (n =? 43).

(** The characters of an encoded query: those, [=] and [&]. *)
Definition query_text_char (c : ascii) : bool :=
  query_char c || (ord c =? 61) || (ord c =? 38).

Definition all_chars (p : ascii -> bool) (s : string) : bool :=
  forallb p (list_ascii_of_string s).

(** * Properties *)

Lemma send_request_run method request_path body api_key api_secret w :
  let req := issued_request method request_path body api_key api_secret
               (clock_ms w) in
  let out := outcome (server w req) in
  send_request method request_path body api_key api_secret w =
  (fst out,
   mkWorld (clock_ms w) (server w)
     ((trace w ++ [Clock (clock_ms w)]) ++ [Http req] ++ snd out)).
Proof.
  cbv zeta.
  unfold send_request, issued_request, bind, try_except,
    SignatureGenerator.generate_signature, time_ms, bind, ret,
    requests_post, requests_get, http; cbn [clock_ms server trace].
  cbn [SignatureGenerator.api_secret SignatureGenerator.init signature timestamp].
  set (path' := if _ : bool then _ else request_path).
  set (hs := [ _; _; _; _ ]).
  destruct (String.eqb method "POST") eqn:Hpost;
    cbn [clock_ms server trace];
    match goal with |- context [server w ?r] => destruct (server w r) as [cause|resp] eqn:Hsrv end;
    cbn [outcome failure fst snd].
  all: try (unfold logger_error, emit, raise, bind; cbn [clock_ms server trace];
            rewrite <- !app_assoc; reflexivity).
  all: unfold raise_for_status, is_error_status, http_error_msg, response_json, bind.
  all: destruct (400 <=? status_code resp) eqn:H4;
       destruct (status_code resp <? 500) eqn:H5;
       destruct (status_code resp <? 600) eqn:H6;
       destruct (500 <=? status_code resp) eqn:H55; try lia;
       cbn [andb raise ret clock_ms server trace fst snd failure];
       try (unfold logger_error, emit, raise, bind; cbn [clock_ms server trace];
            rewrite <- !app_assoc; reflexivity).
  all: destruct (decoded resp) as [[c|c]|j]; cbn [raise ret fst snd failure];
       unfold logger_error, emit, raise, ret, bind; cbn [clock_ms server trace];
       rewrite <- ?app_assoc; cbn [app]; rewrite ?app_nil_r; reflexivity.
Qed.

(** ** Text lemmas *)

Lemma append_cons (x : ascii) (a b : string) :
  String x a +:+ b = String x (a +:+ b).
Proof. reflexivity. Qed.

Lemma append_nil_l (a : string) : "" +:+ a = a.
Proof. reflexivity. Qed.

Lemma append_assoc (a b c : string) : (a +:+ b) +:+ c = a +:+ (b +:+ c).
Proof.
  induction a as [|x a IH]; [reflexivity|].
  now rewrite !append_cons, IH.
Qed.

Lemma append_nil_r (a : string) : a +:+ "" = a.
Proof.
  induction a as [|x a IH]; [reflexivity|].
  now rewrite append_cons, IH.
Qed.

Lemma list_ascii_of_append (a b : string) :
  list_ascii_of_string (a +:+ b) =
  list_ascii_of_string a ++ list_ascii_of_string b.
Proof.
  induction a as [|x a IH]; [reflexivity|].
  rewrite append_cons. cbn. now rewrite IH.
Qed.

Lemma append_inv_tail (a b r : string) : a +:+ r = b +:+ r -> a = b.
Proof.
  intros H.
  apply (f_equal list_ascii_of_string) in H.
  rewrite !list_ascii_of_append in H.
  apply app_inv_tail in H.
  rewrite <- (string_of_list_ascii_of_string a),
          <- (string_of_list_ascii_of_string b).
  now rewrite H.
Qed.

Lemma str_int_inj (m n : Z) : str_int m = str_int n -> m = n.
Proof.
  unfold str_int. intros H.
  assert (Hnz : forall z, Z.to_int z <> Pos Nil /\ Z.to_int z <> Neg Nil).
  { intros [|p|p]; cbn; split; try discriminate;
      intros [= E]; revert E; apply Unsigned.to_uint_nonnil. }
  assert (E : Some (Z.to_int m) = Some (Z.to_int n)).
  { rewrite <- (NilZero.isi (Z.to_int m)), <- (NilZero.isi (Z.to_int n));
      try apply Hnz.
    now rewrite H. }
  injection E as E.
  rewrite <- (DecimalZ.of_to m), <- (DecimalZ.of_to n).
  now rewrite E.
Qed.

(** ** Shape of a digest *)

Lemma hexdigit_in (n : Z) : In (HMAC.hexdigit n) hexchars.
Proof.
  unfold HMAC.hexdigit. apply nth_In.
  pose proof (Z.mod_pos_bound n 16 ltac:(lia)) as Hb.
  change (Z.to_nat (n mod 16) < 16)%nat.
  lia.
Qed.

Lemma hex_in_hexstrings (bs : bytes) :
  In (HMAC.hex bs) (hexstrings (2 * length bs)).
Proof.
  induction bs as [|b bs IH].
  - now left.
  - replace (2 * length (b :: bs))%nat with (S (S (2 * length bs))) by (cbn; lia).
    cbn [HMAC.hex hexstrings].
    apply in_flat_map. exists (HMAC.hexdigit (b / 16)).
    split; [apply hexdigit_in|].
    apply in_map, in_flat_map. exists (HMAC.hexdigit b).
    split; [apply hexdigit_in|].
    now apply in_map.
Qed.

Lemma sha256_length (msg : bytes) : length (SHA256.sha256 msg) = 32%nat.
Proof. reflexivity. Qed.

Lemma hexdigest_in_hexstrings (key msg : bytes) :
  In (HMAC.hexdigest key msg) (hexstrings 64).
Proof.
  unfold HMAC.hexdigest, HMAC.digest.
  set (d := SHA256.sha256 _).
  change 64%nat with (2 * 32)%nat.
  rewrite <- (sha256_length (HMAC.xor_pad 92 (HMAC.block_key key) ++
                SHA256.sha256 (HMAC.xor_pad 54 (HMAC.block_key key) ++ msg))).
  apply hex_in_hexstrings.
Qed.

Lemma hexstrings_length (n : nat) (s : string) :
  In s (hexstrings n) ->
  String.length s = n /\ Forall (fun c => In c hexchars) (list_ascii_of_string s).
Proof.
  revert s. induction n as [|n IH]; intros s Hs.
  - destruct Hs as [<-|[]]. split; [reflexivity | constructor].
  - cbn [hexstrings] in Hs. apply in_flat_map in Hs as (c & Hc & Hs).
    apply in_map_iff in Hs as (s' & <- & Hs').
    destruct (IH _ Hs') as [Hl Hf].
    split; cbn; [now rewrite Hl | now constructor].
Qed.

(** ** The signature generator *)

Lemma sign_payload_layout timestamp method request_path body :
  SignatureGenerator.sign_payload timestamp method request_path body =
  timestamp +:+ upper method +:+ request_path +:+
    (if truthy body && String.eqb (upper method) "POST"
     then body_serialization body else EmptyString).
Proof.
  unfold SignatureGenerator.sign_payload.
  destruct (truthy body && String.eqb (upper method) "POST") eqn:E.
  - destruct body as [[d|s]|]; cbn [body_serialization];
      rewrite ?append_assoc; try reflexivity.
    discriminate E.
  - now rewrite append_nil_r, append_assoc.
Qed.

Lemma generate_signature_run self method request_path body w :
  SignatureGenerator.generate_signature self method request_path body w =
  (Return
     (mkSignatureData
        (HMAC.hexdigest (SignatureGenerator.api_secret self)
           (encode_utf8
              (SignatureGenerator.sign_payload (str_int (clock_ms w))
                 method request_path body)))
        (str_int (clock_ms w))),
   mkWorld (clock_ms w) (server w) (trace w ++ [Clock (clock_ms w)])).
Proof. reflexivity. Qed.

(** C1: for every secret, path, optional body and clock reading, and
    every method whose uppercase form the alphabet can hold, the generated
    signature is the lowercase hexadecimal text (64 digits) of
    HMAC-SHA256 keyed with the secret's bytes over
    timestamp ++ upper(method) ++ path, followed by the body's
    serialization exactly when the body is non-empty and the uppercased
    method is POST; the returned timestamp is the clock reading in decimal.
    In scenario 1 (GET /sapi/v1/account, secret abc, clock 1700000000000)
    the signature is the HMAC-SHA256 of 1700000000000GET/sapi/v1/account. *)
Theorem generate_signature_is_hmac :
  (forall (api_key api_secret method request_path : string)
          (body : option pybody) (w : World),
     upper_exact method = true ->
     let t := str_int (clock_ms w) in
     let payload :=
       t +:+ upper method +:+ request_path +:+
       (if truthy body && String.eqb (upper method) "POST"
        then body_serialization body else EmptyString) in
     let sig := HMAC.hex (HMAC.digest (encode_utf8 api_secret)
                                      (encode_utf8 payload)) in
     result_of (SignatureGenerator.generate_signature
                  (SignatureGenerator.init api_key api_secret)
                  method request_path body) w
     = Return (mkSignatureData sig t)
     /\ String.length sig = 64%nat
     /\ Forall (fun c => In c hexchars) (list_ascii_of_string sig))
  /\
  (forall (api_key : string) (srv : Request -> string + Response)
          (tr : list event),
     result_of (SignatureGenerator.generate_signature
                  (SignatureGenerator.init api_key "abc")
                  "GET" "/sapi/v1/account" None)
               (mkWorld 1700000000000 srv tr)
     = Return (mkSignatureData
                 (HMAC.hexdigest (encode_utf8 "abc")
                    (encode_utf8 "1700000000000GET/sapi/v1/account"))
                 "1700000000000")
     /\ HMAC.hexdigest (encode_utf8 "abc")
          (encode_utf8 "1700000000000GET/sapi/v1/account")
        = "4f14d9fe417747f423b1551203176886d539dd9fe1b561e7b31687c644fd7eee").
Proof.
  split.
  - intros api_key api_secret method request_path body w _ t payload sig.
    split; [|apply hexstrings_length, hexdigest_in_hexstrings].
    unfold result_of. rewrite generate_signature_run. cbn [fst].
    now rewrite sign_payload_layout.
  - intros api_key srv tr. split; [|now vm_compute].
    unfold result_of. rewrite generate_signature_run. cbn [fst].
    do 2 f_equal.
Qed.

(** A method in lowercase with an accented letter and a sharp s, and a
    POST written in lowercase with a mapping. *)
Lemma generate_signature_is_hmac_witness :
  let w := mkWorld 1700000000000 (fun _ => inl "unreachable") [] in
  let odd := "g" +:+ char (chr 233) +:+ char (chr 223) +:+ "t" in
  result_of (SignatureGenerator.generate_signature
               (SignatureGenerator.init "key" "abc") odd "/sapi/v1/account"
               None) w
  = Return (mkSignatureData
              (HMAC.hex (HMAC.digest (encode_utf8 "abc")
                 (encode_utf8
                    ("1700000000000G" +:+ char (chr 201) +:+ "SST" +:+
                     "/sapi/v1/account"))))
              "1700000000000")
  /\ result_of (SignatureGenerator.generate_signature
                  (SignatureGenerator.init "key" "abc") "post" "/sapi/v1/cancel"
                  (Some (BodyDict [("symbol", PStr "enausdt")]))) w
     = Return (mkSignatureData
                 (HMAC.hex (HMAC.digest (encode_utf8 "abc")
                    (encode_utf8
                       ("1700000000000POST/sapi/v1/cancel" +:+
                        json_dumps [("symbol", PStr "enausdt")]))))
                 "1700000000000").
Proof.
  intros w odd. split.
  - apply (proj1 generate_signature_is_hmac "key" "abc" odd
             "/sapi/v1/account" None w).
    reflexivity.
  - apply (proj1 generate_signature_is_hmac "key" "abc" "post"
             "/sapi/v1/cancel"
             (Some (BodyDict [("symbol", PStr "enausdt")])) w).
    reflexivity.
Defined.

(** C8: signature generation is a function of the secret, the method, the
    path, the body and the clock reading alone: two generators holding the
    same secret, run on worlds whose clocks read the same, return the same
    signature and timestamp; and a run leaves the clock and the server as
    they were, adding only its clock reading to the trace. *)
Theorem generate_signature_deterministic
    (g1 g2 : SignatureGenerator.t) (method request_path : string)
    (body : option pybody) (w1 w2 : World) :
  SignatureGenerator.api_secret g1 = SignatureGenerator.api_secret g2 ->
  clock_ms w1 = clock_ms w2 ->
  result_of (SignatureGenerator.generate_signature g1 method request_path body) w1
  = result_of (SignatureGenerator.generate_signature g2 method request_path body) w2
  /\ (let w1' := world_after (SignatureGenerator.generate_signature
                                g1 method request_path body) w1 in
      clock_ms w1' = clock_ms w1 /\ server w1' = server w1 /\
      trace w1' = trace w1 ++ [Clock (clock_ms w1)]).
Proof.
  intros Hs Hc. unfold result_of, world_after.
  rewrite !generate_signature_run. cbn [fst snd clock_ms server trace].
  now rewrite Hs, Hc.
Qed.

Lemma generate_signature_deterministic_witness :
  let g1 := SignatureGenerator.init "key-one" "abc" in
  let g2 := SignatureGenerator.init "key-two" "abc" in
  let w1 := mkWorld 1700000000000 (fun _ => inl "unreachable") [] in
  let w2 := mkWorld 1700000000000 (fun _ => inl "timeout") [LogError "earlier"] in
  result_of (SignatureGenerator.generate_signature g1 "GET" "/sapi/v1/account" None) w1
  = result_of (SignatureGenerator.generate_signature g2 "GET" "/sapi/v1/account" None) w2.
Proof.
  intros g1 g2 w1 w2.
  apply (generate_signature_deterministic g1 g2 "GET" "/sapi/v1/account" None w1 w2);
    reflexivity.
Defined.

(** ** The request sender *)

Lemma requests_of_app (t1 t2 : list event) :
  requests_of (t1 ++ t2) = requests_of t1 ++ requests_of t2.
Proof.
  induction t1 as [|[ms|r|msg] t1 IH]; cbn; [reflexivity | | | ]; now rewrite ?IH.
Qed.

Lemma outcome_no_request (answer : string + Response) :
  requests_of (snd (outcome answer)) = [].
Proof.
  destruct answer as [cause|r]; cbn; [reflexivity|].
  destruct (is_error_status (status_code r)); [reflexivity|].
  now destruct (decoded r) as [[c|c]|j].
Qed.

(** One call, one exchange: the request [issued_request] describes. *)
Lemma send_request_requests method request_path body api_key api_secret w :
  requests_of (trace (world_after
     (send_request method request_path body api_key api_secret) w)) =
  requests_of (trace w) ++
  [issued_request method request_path body api_key api_secret (clock_ms w)].
Proof.
  unfold world_after. rewrite send_request_run. cbn [snd trace].
  rewrite !requests_of_app, outcome_no_request. cbn.
  now rewrite !app_nil_r.
Qed.


Lemma upper_POST_not_GET (m : string) :
  upper m = "POST" -> String.eqb m "GET" = false.
Proof.
  intros H. apply String.eqb_neq. intros ->. discriminate H.
Qed.

(** C2: a GET with a non-empty body mapping is sent to the path extended
    with [?] and the URL-encoded items, with no body, and its signature is
    the HMAC of timestamp ++ GET ++ that extended path. *)
Theorem get_query_is_signed
    (request_path : string) (body : pydict) (api_key api_secret : string)
    (w : World) :
  body <> [] ->
  let query_path := request_path +:+ "?" +:+ urlencode body in
  let t := str_int (clock_ms w) in
  exists req : Request,
    requests_of (trace (world_after
       (send_request "GET" request_path (Some body) api_key api_secret) w))
    = requests_of (trace w) ++ [req]
    /\ http_verb req = "GET"
    /\ url req = BASE_URL +:+ query_path
    /\ wire_body req = None
    /\ header "X-CH-TS" (headers req) = Some t
    /\ header "X-CH-SIGN" (headers req) =
       Some (HMAC.hexdigest (encode_utf8 api_secret)
               (encode_utf8 (t +:+ "GET" +:+ query_path))).
Proof.
  intros Hne query_path t.
  exists (issued_request "GET" request_path (Some body) api_key api_secret
            (clock_ms w)).
  split; [apply send_request_requests|].
  destruct body as [|kv body]; [contradiction|].
  unfold issued_request.
  cbn [String.eqb Ascii.eqb Bool.eqb andb dict_truthy truthy option_map
       http_verb url headers json_arg wire_body header default].
  repeat split.
  rewrite sign_payload_layout. cbn [truthy option_map].
  change (upper "GET") with "GET".
  change (String.eqb "GET" "POST") with false.
  cbn [andb]. now rewrite append_nil_r.
Qed.

(** Scenario 4: [open_orders] for symbol enausdt and limit 20. *)
Lemma get_query_is_signed_witness :
  let w := mkWorld 1700000000000 (fun _ => inl "unreachable") [] in
  let params : gmap string pyval :=
    {[ "symbol" := PStr "enausdt"; "limit" := PInt 20 ]} in
  exists req : Request,
    requests_of (trace (world_after
       (OrderManager.open_orders (OrderManager.mk "key" "abc") params) w))
    = [req]
    /\ http_verb req = "GET"
    /\ url req = "https://openapi.fameex.net/sapi/v1/openOrders?symbol=enausdt&limit=20"
    /\ header "X-CH-SIGN" (headers req) =
       Some (HMAC.hexdigest (encode_utf8 "abc")
               (encode_utf8
                  "1700000000000GET/sapi/v1/openOrders?symbol=enausdt&limit=20")).
Proof.
  intros w params.
  destruct (get_query_is_signed "/sapi/v1/openOrders"
              [("symbol", PStr "enausdt"); ("limit", PInt 20)] "key" "abc" w
              ltac:(discriminate))
    as (req & Hsent & Hverb & Hurl & _ & _ & Hsign).
  exists req. repeat split; assumption.
Defined.

Lemma getitem_present (d : gmap string pyval) (key : string) (v : pyval)
    (w : World) :
  d !! key = Some v -> getitem d key w = (Return v, w).
Proof. unfold getitem. now intros ->. Qed.

Lemma getitem_missing (d : gmap string pyval) (key : string) (w : World) :
  d !! key = None -> getitem d key w = (Raise (KeyError key), w).
Proof. unfold getitem. now intros ->. Qed.

(** C5: when the order holds the five named fields, [place_order] issues
    one POST to /sapi/v1/order whose JSON document has exactly the items
    symbol, volume, side, type and price, in that order, with the order's
    values; what is transmitted is the [json.dumps] text of that document. *)
Theorem place_order_request
    (self : OrderManager.t) (order : gmap string pyval)
    (symbol volume side type price : pyval) (w : World) :
  order !! "symbol" = Some symbol ->
  order !! "volume" = Some volume ->
  order !! "side" = Some side ->
  order !! "type" = Some type ->
  order !! "price" = Some price ->
  let document :=
    [ ("symbol", symbol); ("volume", volume); ("side", side);
      ("type", type); ("price", price) ] in
  exists req : Request,
    requests_of (trace (world_after (OrderManager.place_order self order) w))
    = requests_of (trace w) ++ [req]
    /\ http_verb req = "POST"
    /\ url req = BASE_URL +:+ "/sapi/v1/order"
    /\ json_arg req = Some document
    /\ wire_body req = Some (json_dumps document).
Proof.
  intros Hsym Hvol Hside Htype Hprice document.
  exists (issued_request "POST" "/sapi/v1/order" (Some document)
            (OrderManager.api_key self) (OrderManager.api_secret self)
            (clock_ms w)).
  split; [|now repeat split].
  rewrite <- send_request_requests. unfold world_after. f_equal. f_equal.
  unfold OrderManager.place_order, bind.
  now rewrite (getitem_present _ _ _ _ Hsym), (getitem_present _ _ _ _ Hvol),
    (getitem_present _ _ _ _ Hside), (getitem_present _ _ _ _ Htype),
    (getitem_present _ _ _ _ Hprice).
Qed.

(** Scenario 2: the order ENAUSDT, 10, BUY, LIMIT, 0.8374. *)
Lemma place_order_request_witness :
  let w := mkWorld 1700000000000 (fun _ => inl "unreachable") [] in
  let order : gmap string pyval :=
    {[ "symbol" := PStr "ENAUSDT"; "volume" := PInt 10; "side" := PStr "BUY";
       "type" := PStr "LIMIT"; "price" := PFloat "0.8374" ]} in
  exists req : Request,
    requests_of (trace (world_after
       (OrderManager.place_order (OrderManager.mk "key" "abc") order) w))
    = [req]
    /\ http_verb req = "POST"
    /\ url req = "https://openapi.fameex.net/sapi/v1/order"
    /\ json_arg req =
       Some [ ("symbol", PStr "ENAUSDT"); ("volume", PInt 10);
              ("side", PStr "BUY"); ("type", PStr "LIMIT");
              ("price", PFloat "0.8374") ]
    /\ wire_body req =
       Some ("{" +:+ quoted "symbol" +:+ ": " +:+ quoted "ENAUSDT" +:+ ", " +:+
             quoted "volume" +:+ ": 10, " +:+
             quoted "side" +:+ ": " +:+ quoted "BUY" +:+ ", " +:+
             quoted "type" +:+ ": " +:+ quoted "LIMIT" +:+ ", " +:+
             quoted "price" +:+ ": 0.8374}").
Proof.
  intros w order.
  destruct (place_order_request (OrderManager.mk "key" "abc") order
              (PStr "ENAUSDT") (PInt 10) (PStr "BUY") (PStr "LIMIT")
              (PFloat "0.8374") w
              eq_refl eq_refl eq_refl eq_refl eq_refl)
    as (req & Hsent & Hverb & Hurl & Hjson & Hwire).
  exists req. repeat split; assumption.
Defined.


(** C9: a method that is not POST but uppercases to POST, with a non-empty
    body mapping: the signed text ends with the body's [json.dumps]
    serialization, while the request issued is a GET without body, to the
    bare path. *)
Theorem lowercase_post_diverges
    (method request_path : string) (body : pydict)
    (api_key api_secret : string) (w : World) :
  method <> "POST" ->
  upper method = "POST" ->
  body <> [] ->
  let t := str_int (clock_ms w) in
  exists req : Request,
    requests_of (trace (world_after
       (send_request method request_path (Some body) api_key api_secret) w))
    = requests_of (trace w) ++ [req]
    /\ http_verb req = "GET"
    /\ url req = BASE_URL +:+ request_path
    /\ json_arg req = None
    /\ wire_body req = None
    /\ header "X-CH-SIGN" (headers req) =
       Some (HMAC.hexdigest (encode_utf8 api_secret)
               (encode_utf8
                  (t +:+ "POST" +:+ request_path +:+ json_dumps body))).
Proof.
  intros Hne Hup Hbody t.
  exists (issued_request method request_path (Some body) api_key api_secret
            (clock_ms w)).
  split; [apply send_request_requests|].
  unfold issued_request.
  rewrite (upper_POST_not_GET _ Hup).
  rewrite (proj2 (String.eqb_neq method "POST") Hne).
  cbn [andb http_verb url headers json_arg wire_body option_map header
       String.eqb Ascii.eqb Bool.eqb].
  repeat split.
  rewrite sign_payload_layout, Hup.
  destruct body as [|kv body]; [contradiction|].
  reflexivity.
Qed.

Lemma lowercase_post_diverges_witness :
  let w := mkWorld 1700000000000 (fun _ => inl "unreachable") [] in
  exists req : Request,
    requests_of (trace (world_after
       (send_request "post" "/sapi/v1/cancel"
          (Some [("symbol", PStr "enausdt")]) "key" "abc") w))
    = [req]
    /\ http_verb req = "GET"
    /\ url req = "https://openapi.fameex.net/sapi/v1/cancel"
    /\ wire_body req = None
    /\ header "X-CH-SIGN" (headers req) =
       Some (HMAC.hexdigest (encode_utf8 "abc")
               (encode_utf8
                  ("1700000000000POST/sapi/v1/cancel" +:+
                   json_dumps [("symbol", PStr "enausdt")]))).
Proof.
  intros w.
  destruct (lowercase_post_diverges "post" "/sapi/v1/cancel"
              [("symbol", PStr "enausdt")] "key" "abc" w
              ltac:(discriminate) eq_refl ltac:(discriminate))
    as (req & Hsent & Hverb & Hurl & _ & Hwire & Hsign).
  exists req. repeat split; assumption.
Defined.

(** C3 as stated fails for the empty mapping: a POST with [{}] transmits
    the two bytes of the empty JSON object, and signs nothing for the body. *)
Lemma post_empty_mapping_counterexample :
  let w := mkWorld 1700000000000 (fun _ => inl "unreachable") [] in
  exists req : Request,
    requests_of (trace (world_after
       (send_request "POST" "/sapi/v1/order" (Some []) "key" "abc") w))
    = [req]
    /\ http_verb req = "POST"
    /\ wire_body req = Some "{}"
    /\ SignatureGenerator.sign_payload "1700000000000" "POST" "/sapi/v1/order"
         (Some (BodyDict []))
       = "1700000000000POST/sapi/v1/order"
    /\ header "X-CH-SIGN" (headers req) =
       Some (HMAC.hexdigest (encode_utf8 "abc")
               (encode_utf8 "1700000000000POST/sapi/v1/order"))
    /\ header "X-CH-SIGN" (headers req) <>
       Some (HMAC.hexdigest (encode_utf8 "abc")
               (encode_utf8 ("1700000000000POST/sapi/v1/order" +:+ "{}"))).
Proof.
  intros w.
  exists (issued_request "POST" "/sapi/v1/order" (Some []) "key" "abc"
            (clock_ms w)).
  split; [apply send_request_requests|].
  repeat split. vm_compute. discriminate.
Qed.

(** C3, amended: for a POST with a non-empty mapping, the text appended to
    the signed payload is, byte for byte, the JSON text transmitted. *)
Theorem post_body_signed_as_sent
    (request_path : string) (body : pydict) (api_key api_secret : string)
    (w : World) :
  body <> [] ->
  let t := str_int (clock_ms w) in
  exists (req : Request) (wire : string),
    requests_of (trace (world_after
       (send_request "POST" request_path (Some body) api_key api_secret) w))
    = requests_of (trace w) ++ [req]
    /\ http_verb req = "POST"
    /\ wire_body req = Some wire
    /\ body_serialization (Some (BodyDict body)) = wire
    /\ SignatureGenerator.sign_payload t "POST" request_path
         (Some (BodyDict body))
       = t +:+ "POST" +:+ request_path +:+ wire
    /\ header "X-CH-SIGN" (headers req) =
       Some (HMAC.hexdigest (encode_utf8 api_secret)
               (encode_utf8 (t +:+ "POST" +:+ request_path +:+ wire))).
Proof.
  intros Hne t.
  exists (issued_request "POST" request_path (Some body) api_key api_secret
            (clock_ms w)), (json_dumps body).
  split; [apply send_request_requests|].
  destruct body as [|kv body]; [contradiction|].
  assert (E : SignatureGenerator.sign_payload t "POST" request_path
                (Some (BodyDict (kv :: body)))
              = t +:+ "POST" +:+ request_path +:+ json_dumps (kv :: body)).
  { now rewrite sign_payload_layout. }
  repeat split; try exact E.
  unfold issued_request.
  cbn [String.eqb Ascii.eqb Bool.eqb andb headers header option_map].
  fold t. now rewrite E.
Qed.

Lemma post_body_signed_as_sent_witness :
  let w := mkWorld 1700000000000 (fun _ => inl "unreachable") [] in
  let body := [("symbol", PStr "enausdt"); ("orderId", PStr "2602461198832870824")] in
  exists (req : Request) (wire : string),
    requests_of (trace (world_after
       (send_request "POST" "/sapi/v1/cancel" (Some body) "key" "abc") w))
    = [req]
    /\ wire_body req = Some wire
    /\ header "X-CH-SIGN" (headers req) =
       Some (HMAC.hexdigest (encode_utf8 "abc")
               (encode_utf8 ("1700000000000POST/sapi/v1/cancel" +:+ wire))).
Proof.
  intros w body.
  destruct (post_body_signed_as_sent "/sapi/v1/cancel" body "key" "abc" w
              ltac:(discriminate))
    as (req & wire & Hsent & _ & Hwire & _ & _ & Hsign).
  exists req, wire. repeat split; assumption.
Defined.




(** ** The operations with required fields *)

(** Looks the next field up: either it is the one reported missing, or
    the lookup succeeds and the operation goes on. *)
Ltac next_field params key :=
  unfold bind at 1;
  destruct (params !! key) as [?v|] eqn:?H;
  [ rewrite (getitem_present params key _ _ ltac:(eassumption))
  | exists key; rewrite (getitem_missing params key _ ltac:(assumption));
    cbn; repeat split; auto 10 ].

(** C10: an operation whose mapping lacks one of its required fields
    raises [KeyError] for a missing field (not [FameexAPIException]) and
    leaves the world as it found it: the clock is not read, so no
    signature is computed, and nothing is sent. *)
Theorem missing_field_is_key_error
    (op : operation) (api_key api_secret : string)
    (params : gmap string pyval) (w : World) :
  (exists field, In field (required_fields op) /\ params !! field = None) ->
  exists key,
    In key (required_fields op) /\ params !! key = None /\
    call op api_key api_secret params w = (Raise (KeyError key), w).
Proof.
  intros (field & Hin & Hnone).
  destruct op; cbn [call required_fields] in *.
  - unfold OrderManager.place_order.
    next_field params "symbol". next_field params "volume".
    next_field params "side". next_field params "type".
    next_field params "price".
    exfalso. cbn in Hin. intuition (subst; congruence).
  - unfold OrderManager.cancel_order.
    next_field params "symbol". next_field params "order_id".
    exfalso. cbn in Hin. intuition (subst; congruence).
  - unfold OrderManager.open_orders.
    next_field params "symbol". next_field params "limit".
    exfalso. cbn in Hin. intuition (subst; congruence).
  - unfold AssetManager.account_balance.
    next_field params "symbols".
    exfalso. cbn in Hin. intuition (subst; congruence).
Qed.

Lemma missing_field_is_key_error_witness :
  let w := mkWorld 1700000000000 (fun _ => inl "unreachable") [] in
  let params : gmap string pyval := {[ "symbol" := PStr "enausdt" ]} in
  exists key,
    params !! key = None /\
    call CancelOrder "key" "abc" params w = (Raise (KeyError key), w).
Proof.
  intros w params.
  destruct (missing_field_is_key_error CancelOrder "key" "abc" params w)
    as (key & _ & Hnone & Hrun).
  - exists "order_id". split; [cbn; auto | reflexivity].
  - exists key. split; assumption.
Defined.

(** ** Encoding lemmas *)

Lemma ord_inj (c1 c2 : ascii) : ord c1 = ord c2 -> c1 = c2.
Proof.
  unfold ord. intros H. apply N2Z.inj in H.
  rewrite <- (ascii_N_embedding c1), <- (ascii_N_embedding c2).
  now rewrite H.
Qed.

Lemma ord_range (c : ascii) : 0 <= ord c < 256.
Proof.
  unfold ord. pose proof (N_ascii_bounded c). lia.
Qed.

Lemma encode_utf8_inj (s1 s2 : string) :
  encode_utf8 s1 = encode_utf8 s2 -> s1 = s2.
Proof.
  revert s2. induction s1 as [|c1 r1 IH]; intros [|c2 r2]; cbn [encode_utf8].
  - reflexivity.
  - unfold utf8_char. destruct (ord c2 <? 128); discriminate.
  - unfold utf8_char. destruct (ord c1 <? 128); discriminate.
  - unfold utf8_char.
    pose proof (ord_range c1) as B1. pose proof (ord_range c2) as B2.
    destruct (ord c1 <? 128) eqn:L1; destruct (ord c2 <? 128) eqn:L2;
      cbn [app]; intros E.
    + injection E as E1 E2. f_equal; [now apply ord_inj | now apply IH].
    + exfalso. injection E as E1 _. revert E1. Z.div_mod_to_equations. lia.
    + exfalso. injection E as E1 _. revert E1. Z.div_mod_to_equations. lia.
    + injection E as E1 E2 E3.
      f_equal; [|now apply IH].
      apply ord_inj. revert E1 E2. Z.div_mod_to_equations. lia.
Qed.

(** * Further properties of the module *)

(** ** The operations, one by one *)

(** X1: with both fields present, [cancel_order] issues one POST to
    /sapi/v1/cancel whose JSON document is symbol and orderId, the latter
    holding the caller's order_id; the signature covers that document's
    [json.dumps] text. *)
Theorem cancel_order_request
    (self : OrderManager.t) (order : gmap string pyval)
    (symbol order_id : pyval) (w : World) :
  order !! "symbol" = Some symbol ->
  order !! "order_id" = Some order_id ->
  let document := [ ("symbol", symbol); ("orderId", order_id) ] in
  let t := str_int (clock_ms w) in
  exists req : Request,
    requests_of (trace (world_after (OrderManager.cancel_order self order) w))
    = requests_of (trace w) ++ [req]
    /\ http_verb req = "POST"
    /\ url req = BASE_URL +:+ "/sapi/v1/cancel"
    /\ json_arg req = Some document
    /\ header "X-CH-SIGN" (headers req) =
       Some (HMAC.hexdigest (encode_utf8 (OrderManager.api_secret self))
               (encode_utf8
                  (t +:+ "POST" +:+ "/sapi/v1/cancel" +:+ json_dumps document))).
Proof.
  intros Hsym Hid document t.
  exists (issued_request "POST" "/sapi/v1/cancel" (Some document)
            (OrderManager.api_key self) (OrderManager.api_secret self)
            (clock_ms w)).
  split.
  - rewrite <- send_request_requests. unfold world_after. do 3 f_equal.
    unfold OrderManager.cancel_order, bind.
    now rewrite (getitem_present _ _ _ _ Hsym), (getitem_present _ _ _ _ Hid).
  - repeat split. unfold issued_request.
    cbn [String.eqb Ascii.eqb Bool.eqb andb headers header option_map].
    now rewrite sign_payload_layout.
Qed.

Lemma cancel_order_request_witness :
  let w := mkWorld 1700000000000 (fun _ => inl "unreachable") [] in
  let order : gmap string pyval :=
    {[ "symbol" := PStr "enausdt";
       "order_id" := PStr "2602461198832870824" ]} in
  exists req : Request,
    requests_of (trace (world_after
       (OrderManager.cancel_order (OrderManager.mk "key" "abc") order) w))
    = [req]
    /\ url req = "https://openapi.fameex.net/sapi/v1/cancel"
    /\ json_arg req =
       Some [ ("symbol", PStr "enausdt");
              ("orderId", PStr "2602461198832870824") ].
Proof.
  intros w order.
  destruct (cancel_order_request (OrderManager.mk "key" "abc") order
              (PStr "enausdt") (PStr "2602461198832870824") w
              eq_refl eq_refl)
    as (req & Hsent & _ & Hurl & Hjson & _).
  exists req. repeat split; assumption.
Defined.

(** X2: with both fields present, [open_orders] issues one GET, without
    body, to /sapi/v1/openOrders followed by [?symbol=..&limit=..], the
    two values passed through [str] and [quote_plus]; the signature covers
    the path with that query. *)
Theorem open_orders_request
    (self : OrderManager.t) (params : gmap string pyval)
    (symbol limit : pyval) (w : World) :
  params !! "symbol" = Some symbol ->
  params !! "limit" = Some limit ->
  let query_path :=
    "/sapi/v1/openOrders?symbol=" +:+ quote_plus (py_str symbol) +:+
    "&limit=" +:+ quote_plus (py_str limit) in
  let t := str_int (clock_ms w) in
  exists req : Request,
    requests_of (trace (world_after (OrderManager.open_orders self params) w))
    = requests_of (trace w) ++ [req]
    /\ http_verb req = "GET"
    /\ url req = BASE_URL +:+ query_path
    /\ json_arg req = None
    /\ header "X-CH-SIGN" (headers req) =
       Some (HMAC.hexdigest (encode_utf8 (OrderManager.api_secret self))
               (encode_utf8 (t +:+ "GET" +:+ query_path))).
Proof.
  intros Hsym Hlim query_path t.
  set (body := [ ("symbol", symbol); ("limit", limit) ]).
  exists (issued_request "GET" "/sapi/v1/openOrders" (Some body)
            (OrderManager.api_key self) (OrderManager.api_secret self)
            (clock_ms w)).
  split.
  - rewrite <- send_request_requests. unfold world_after. do 3 f_equal.
    unfold OrderManager.open_orders, bind.
    now rewrite (getitem_present _ _ _ _ Hsym), (getitem_present _ _ _ _ Hlim).
  - subst body.
    assert (Eq : "/sapi/v1/openOrders" +:+ "?" +:+
                 urlencode [ ("symbol", symbol); ("limit", limit) ]
                 = query_path).
    { unfold query_path, urlencode, urlencode_item.
      cbn [map join fst snd]. change (quote_plus "symbol") with "symbol".
      change (quote_plus "limit") with "limit".
      rewrite ?append_assoc. reflexivity. }
    unfold issued_request.
    cbn [String.eqb Ascii.eqb Bool.eqb andb dict_truthy truthy option_map
         http_verb url headers json_arg header default from_option id].
    rewrite Eq. repeat split.
    rewrite sign_payload_layout. cbn [truthy option_map].
    change (upper "GET") with "GET".
    change (String.eqb "GET" "POST") with false.
    cbn [andb]. now rewrite append_nil_r.
Qed.

Lemma open_orders_request_witness :
  let w := mkWorld 1700000000000 (fun _ => inl "unreachable") [] in
  let params : gmap string pyval :=
    {[ "symbol" := PStr "ena usdt"; "limit" := PInt 20 ]} in
  exists req : Request,
    requests_of (trace (world_after
       (OrderManager.open_orders (OrderManager.mk "key" "abc") params) w))
    = [req]
    /\ url req =
       "https://openapi.fameex.net/sapi/v1/openOrders?symbol=ena+usdt&limit=20".
Proof.
  intros w params.
  destruct (open_orders_request (OrderManager.mk "key" "abc") params
              (PStr "ena usdt") (PInt 20) w eq_refl eq_refl)
    as (req & Hsent & _ & Hurl & _).
  exists req. split; assumption.
Defined.

(** X3: [balance] passes an empty mapping, which is false: nothing is
    appended to the path, nothing is sent as a body and nothing is signed
    for it.  The one request is a GET to /sapi/v1/account, signed over
    timestamp ++ GET ++ /sapi/v1/account. *)
Theorem balance_request (self : AssetManager.t) (w : World) :
  let t := str_int (clock_ms w) in
  requests_of (trace (world_after (AssetManager.balance self) w))
  = requests_of (trace w) ++
    [ mkRequest "GET" (BASE_URL +:+ "/sapi/v1/account")
        [ ("X-CH-APIKEY", AssetManager.api_key self);
          ("X-CH-TS", t);
          ("X-CH-SIGN",
           HMAC.hexdigest (encode_utf8 (AssetManager.api_secret self))
             (encode_utf8 (t +:+ "GET" +:+ "/sapi/v1/account")));
          ("Content-Type", "application/json") ]
        None ].
Proof.
  intros t. unfold AssetManager.balance.
  rewrite send_request_requests. do 2 f_equal.
  unfold issued_request.
  cbn [String.eqb Ascii.eqb Bool.eqb andb dict_truthy truthy option_map].
  rewrite sign_payload_layout. cbn [truthy andb].
  now rewrite append_nil_r.
Qed.

(** X4: with the field present, [account_balance] issues one GET, without
    body, to /sapi/v1/account/balance?symbols= followed by the value
    passed through [str] and [quote_plus], so that the commas of a ticker
    list travel as %2C; the signature covers the path with that query. *)
Theorem account_balance_request
    (self : AssetManager.t) (params : gmap string pyval)
    (symbols : pyval) (w : World) :
  params !! "symbols" = Some symbols ->
  let query_path :=
    "/sapi/v1/account/balance?symbols=" +:+ quote_plus (py_str symbols) in
  let t := str_int (clock_ms w) in
  exists req : Request,
    requests_of (trace (world_after (AssetManager.account_balance self params) w))
    = requests_of (trace w) ++ [req]
    /\ http_verb req = "GET"
    /\ url req = BASE_URL +:+ query_path
    /\ json_arg req = None
    /\ header "X-CH-SIGN" (headers req) =
       Some (HMAC.hexdigest (encode_utf8 (AssetManager.api_secret self))
               (encode_utf8 (t +:+ "GET" +:+ query_path))).
Proof.
  intros Hsym query_path t.
  set (body := [ ("symbols", symbols) ]).
  exists (issued_request "GET" "/sapi/v1/account/balance" (Some body)
            (AssetManager.api_key self) (AssetManager.api_secret self)
            (clock_ms w)).
  split.
  - rewrite <- send_request_requests. unfold world_after. do 3 f_equal.
    unfold AssetManager.account_balance, bind.
    now rewrite (getitem_present _ _ _ _ Hsym).
  - subst body.
    assert (Eq : "/sapi/v1/account/balance" +:+ "?" +:+
                 urlencode [ ("symbols", symbols) ]
                 = query_path).
    { unfold query_path, urlencode, urlencode_item.
      cbn [map join fst snd]. change (quote_plus "symbols") with "symbols".
      rewrite ?append_assoc. reflexivity. }
    unfold issued_request.
    cbn [String.eqb Ascii.eqb Bool.eqb andb dict_truthy truthy option_map
         http_verb url headers json_arg header default from_option id].
    rewrite Eq. repeat split.
    rewrite sign_payload_layout. cbn [truthy option_map].
    change (upper "GET") with "GET".
    change (String.eqb "GET" "POST") with false.
    cbn [andb]. now rewrite append_nil_r.
Qed.

Lemma account_balance_request_witness :
  let w := mkWorld 1700000000000 (fun _ => inl "unreachable") [] in
  let params : gmap string pyval := {[ "symbols" := PStr "USDT,BTC,ETH" ]} in
  exists req : Request,
    requests_of (trace (world_after
       (AssetManager.account_balance (AssetManager.mk "key" "abc") params) w))
    = [req]
    /\ url req =
       "https://openapi.fameex.net/sapi/v1/account/balance?symbols=USDT%2CBTC%2CETH".
Proof.
  intros w params.
  destruct (account_balance_request (AssetManager.mk "key" "abc") params
              (PStr "USDT,BTC,ETH") w eq_refl)
    as (req & Hsent & _ & Hurl & _).
  exists req. split; assumption.
Defined.

(** ** The request sender, beyond the request it builds *)

(** X5: a call of [send_request] whose body the serializers accept reads
    the clock once, then performs one exchange, whatever the answer (a
    failure is not retried); it logs only when it raises
    [FameexAPIException], one error whose text is the text of that
    exception; the clock and the server are left as they were. *)
Theorem send_request_footprint
    (method request_path : string) (body : option pydict)
    (api_key api_secret : string) (w : World) :
  serializable body = true ->
  let run := send_request method request_path body api_key api_secret in
  let req := issued_request method request_path body api_key api_secret
               (clock_ms w) in
  clock_ms (world_after run w) = clock_ms w
  /\ server (world_after run w) = server w
  /\ trace (world_after run w) =
     trace w ++ [Clock (clock_ms w); Http req] ++
     match result_of run w with
     | Return _ => []
     | Raise (FameexAPIException msg) => [LogError msg]
     | Raise _ => []
     end.
Proof.
  intros _ run req. unfold world_after, result_of, run.
  rewrite send_request_run. fold req. cbn [fst snd clock_ms server trace].
  repeat split. rewrite <- app_assoc. cbn [app]. do 3 f_equal.
  destruct (server w req) as [cause|r]; cbn; [reflexivity|].
  destruct (is_error_status (status_code r)); [reflexivity|].
  now destruct (decoded r) as [[c|c]|j].
Qed.

(** A failed exchange: one clock reading, one request, one line logged. *)
Lemma send_request_footprint_witness :
  let w := mkWorld 1700000000000 (fun _ => inl "connection refused") [] in
  let body := Some [("symbol", PStr "enausdt"); ("limit", PInt 20)] in
  trace (world_after
           (send_request "GET" "/sapi/v1/openOrders" body "key" "abc") w)
  = [ Clock 1700000000000;
      Http (issued_request "GET" "/sapi/v1/openOrders" body "key" "abc"
              1700000000000);
      LogError "API request failed: connection refused" ].
Proof.
  intros w body.
  apply (send_request_footprint "GET" "/sapi/v1/openOrders" body "key" "abc" w).
  now vm_compute.
Defined.

(** X6: for the methods GET and POST proper, leaving out the POST of an
    empty mapping, the signature can be recomputed from what is
    transmitted: it is the HMAC of the X-CH-TS header, the verb, the part
    of the URL after the base address, and the body sent, if any. *)
Theorem signature_matches_transmission
    (method request_path : string) (body : option pydict)
    (api_key api_secret : string) (w : World) :
  method = "GET" \/ (method = "POST" /\ body <> Some []) ->
  exists (req : Request) (t path : string),
    requests_of (trace (world_after
       (send_request method request_path body api_key api_secret) w))
    = requests_of (trace w) ++ [req]
    /\ http_verb req = method
    /\ header "X-CH-TS" (headers req) = Some t
    /\ url req = BASE_URL +:+ path
    /\ header "X-CH-SIGN" (headers req) =
       Some (HMAC.hexdigest (encode_utf8 api_secret)
               (encode_utf8
                  (t +:+ http_verb req +:+ path +:+
                   default EmptyString (wire_body req)))).
Proof.
  intros Hm.
  exists (issued_request method request_path body api_key api_secret
            (clock_ms w)), (str_int (clock_ms w)).
  destruct Hm as [->|[-> Hbody]].
  - exists (if dict_truthy body
            then request_path +:+ "?" +:+ urlencode (default [] body)
            else request_path).
    split; [apply send_request_requests|].
    unfold issued_request.
    cbn [String.eqb Ascii.eqb Bool.eqb andb http_verb url headers header
         json_arg wire_body option_map default from_option].
    repeat split.
    rewrite sign_payload_layout.
    change (upper "GET") with "GET".
    change (String.eqb "GET" "POST") with false.
    now rewrite Bool.andb_false_r.
  - exists request_path.
    split; [apply send_request_requests|].
    unfold issued_request.
    cbn [String.eqb Ascii.eqb Bool.eqb andb http_verb url headers header
         json_arg wire_body].
    repeat split.
    rewrite sign_payload_layout.
    change (upper "POST") with "POST".
    change (String.eqb "POST" "POST") with true.
    rewrite Bool.andb_true_r.
    destruct body as [[|kv d]|]; [contradiction | reflexivity | reflexivity].
Qed.

Lemma signature_matches_transmission_witness :
  let w := mkWorld 1700000000000 (fun _ => inl "unreachable") [] in
  exists (req : Request) (t path : string),
    requests_of (trace (world_after
       (send_request "POST" "/sapi/v1/order" None "key" "abc") w))
    = [req]
    /\ url req = BASE_URL +:+ path
    /\ header "X-CH-SIGN" (headers req) =
       Some (HMAC.hexdigest (encode_utf8 "abc")
               (encode_utf8
                  (t +:+ http_verb req +:+ path +:+
                   default EmptyString (wire_body req)))).
Proof.
  intros w.
  destruct (signature_matches_transmission "POST" "/sapi/v1/order" None
              "key" "abc" w)
    as (req & t & path & Hsent & _ & _ & Hurl & Hsign).
  - right. split; [reflexivity | discriminate].
  - exists req, t, path. repeat split; assumption.
Defined.

(** X7: a method that is neither GET nor POST, and does not uppercase to
    POST, is sent as a GET to the bare path, and its body is dropped
    altogether: not in the URL, not transmitted, not signed; the signed
    text still names the method asked for, uppercased (for a method whose
    uppercase form the alphabet can hold). *)
Theorem other_method_sent_as_get
    (method request_path : string) (body : option pydict)
    (api_key api_secret : string) (w : World) :
  upper_exact method = true ->
  method <> "GET" ->
  upper method <> "POST" ->
  let t := str_int (clock_ms w) in
  requests_of (trace (world_after
     (send_request method request_path body api_key api_secret) w))
  = requests_of (trace w) ++
    [ mkRequest "GET" (BASE_URL +:+ request_path)
        [ ("X-CH-APIKEY", api_key);
          ("X-CH-TS", t);
          ("X-CH-SIGN",
           HMAC.hexdigest (encode_utf8 api_secret)
             (encode_utf8 (t +:+ upper method +:+ request_path)));
          ("Content-Type", "application/json") ]
        None ].
Proof.
  intros _ Hget Hup t.
  assert (Hpost : method <> "POST") by (intros ->; now apply Hup).
  rewrite send_request_requests. do 2 f_equal.
  unfold issued_request.
  rewrite (proj2 (String.eqb_neq method "GET") Hget).
  rewrite (proj2 (String.eqb_neq method "POST") Hpost).
  cbn [andb]. rewrite sign_payload_layout.
  rewrite (proj2 (String.eqb_neq (upper method) "POST") Hup).
  now rewrite Bool.andb_false_r, append_nil_r.
Qed.

Lemma other_method_sent_as_get_witness :
  let w := mkWorld 1700000000000 (fun _ => inl "unreachable") [] in
  exists sig : string,
    requests_of (trace (world_after
       (send_request "DELETE" "/sapi/v1/order"
          (Some [("orderId", PStr "42")]) "key" "abc") w))
    = [ mkRequest "GET" "https://openapi.fameex.net/sapi/v1/order"
          [ ("X-CH-APIKEY", "key"); ("X-CH-TS", "1700000000000");
            ("X-CH-SIGN", sig); ("Content-Type", "application/json") ]
          None ]
    /\ sig = HMAC.hexdigest (encode_utf8 "abc")
               (encode_utf8 "1700000000000DELETE/sapi/v1/order").
Proof.
  intros w. eexists. split; [|reflexivity].
  apply (other_method_sent_as_get "DELETE" "/sapi/v1/order"
           (Some [("orderId", PStr "42")]) "key" "abc" w);
    [reflexivity | discriminate | discriminate].
Defined.

(** ** The signature generator, beyond mappings *)

(** X8: a non-empty string body, under a method that uppercases to POST,
    is signed as it stands, after the path, without JSON quoting. *)
Theorem string_body_signed_verbatim
    (g : SignatureGenerator.t) (method request_path s : string) (w : World) :
  upper method = "POST" ->
  s <> EmptyString ->
  let t := str_int (clock_ms w) in
  result_of (SignatureGenerator.generate_signature g method request_path
               (Some (BodyStr s))) w
  = Return (mkSignatureData
              (HMAC.hexdigest (SignatureGenerator.api_secret g)
                 (encode_utf8 (t +:+ "POST" +:+ request_path +:+ s)))
              t).
Proof.
  intros Hup Hs t. unfold result_of.
  rewrite generate_signature_run, sign_payload_layout, Hup. cbn [fst].
  destruct s; [contradiction | reflexivity].
Qed.

Lemma string_body_signed_verbatim_witness :
  let w := mkWorld 1700000000000 (fun _ => inl "unreachable") [] in
  result_of (SignatureGenerator.generate_signature
               (SignatureGenerator.init "key" "abc") "Post" "/sapi/v1/order"
               (Some (BodyStr "symbol=ENAUSDT"))) w
  = Return (mkSignatureData
              (HMAC.hexdigest (encode_utf8 "abc")
                 (encode_utf8
                    "1700000000000POST/sapi/v1/ordersymbol=ENAUSDT"))
              "1700000000000").
Proof.
  intros w.
  apply (string_body_signed_verbatim (SignatureGenerator.init "key" "abc")
           "Post" "/sapi/v1/order" "symbol=ENAUSDT" w);
    [reflexivity | discriminate].
Defined.

(** X9: under a method that does not uppercase to POST the body plays no
    part: every body, mapping or string or none, gives the same signature. *)
Theorem body_ignored_unless_post
    (g : SignatureGenerator.t) (method request_path : string)
    (body1 body2 : option pybody) (w : World) :
  upper method <> "POST" ->
  result_of (SignatureGenerator.generate_signature g method request_path body1) w
  = result_of (SignatureGenerator.generate_signature g method request_path body2) w.
Proof.
  intros Hup. unfold result_of.
  rewrite !generate_signature_run, !sign_payload_layout. cbn [fst].
  rewrite (proj2 (String.eqb_neq (upper method) "POST") Hup).
  now rewrite !Bool.andb_false_r.
Qed.

Lemma body_ignored_unless_post_witness :
  let w := mkWorld 1700000000000 (fun _ => inl "unreachable") [] in
  let g := SignatureGenerator.init "key" "abc" in
  result_of (SignatureGenerator.generate_signature g "GET" "/sapi/v1/account"
               (Some (BodyDict [("symbols", PStr "USDT")]))) w
  = result_of (SignatureGenerator.generate_signature g "GET" "/sapi/v1/account"
                 None) w.
Proof.
  intros w g.
  apply (body_ignored_unless_post g "GET" "/sapi/v1/account"
           (Some (BodyDict [("symbols", PStr "USDT")])) None w).
  discriminate.
Defined.

(** ** The operations and the caller's mapping *)

Ltac read_field params key :=
  unfold bind at 1;
  destruct (params !! key) as [?v|] eqn:?H;
  [ rewrite (getitem_present params key _ _ ltac:(eassumption))
  | rewrite (getitem_missing params key _ ltac:(assumption)) ].

(** X10: the fields are read in the order the body is written, and the
    [KeyError] names the first one that is missing, whatever else is
    missing after it; the world is left as it was. *)
Theorem first_missing_field_reported
    (op : operation) (api_key api_secret : string)
    (params : gmap string pyval) (key : string) (w : World) :
  first_missing op params = Some key ->
  call op api_key api_secret params w = (Raise (KeyError key), w).
Proof.
  unfold first_missing.
  destruct op; cbn [required_fields find call].
  - unfold OrderManager.place_order.
    read_field params "symbol"; [|now intros [= <-]].
    read_field params "volume"; [|now intros [= <-]].
    read_field params "side"; [|now intros [= <-]].
    read_field params "type"; [|now intros [= <-]].
    read_field params "price"; [|now intros [= <-]].
    discriminate.
  - unfold OrderManager.cancel_order.
    read_field params "symbol"; [|now intros [= <-]].
    read_field params "order_id"; [|now intros [= <-]].
    discriminate.
  - unfold OrderManager.open_orders.
    read_field params "symbol"; [|now intros [= <-]].
    read_field params "limit"; [|now intros [= <-]].
    discriminate.
  - unfold AssetManager.account_balance.
    read_field params "symbols"; [|now intros [= <-]].
    discriminate.
Qed.

Lemma first_missing_field_reported_witness :
  let w := mkWorld 1700000000000 (fun _ => inl "unreachable") [] in
  let order : gmap string pyval :=
    {[ "symbol" := PStr "ENAUSDT"; "price" := PFloat "0.8374" ]} in
  call PlaceOrder "key" "abc" order w = (Raise (KeyError "volume"), w).
Proof.
  intros w order.
  apply (first_missing_field_reported PlaceOrder "key" "abc" order "volume" w).
  reflexivity.
Defined.

(** X11: an operation looks at its required fields and at nothing else:
    two mappings that agree on them, whatever other entries they hold,
    make the operation do the same thing. *)
Theorem only_required_fields_are_read
    (op : operation) (api_key api_secret : string)
    (params1 params2 : gmap string pyval) (w : World) :
  (forall field, In field (required_fields op) ->
                 params1 !! field = params2 !! field) ->
  call op api_key api_secret params1 w = call op api_key api_secret params2 w.
Proof.
  intros Hagree.
  assert (Hget : forall field, In field (required_fields op) ->
                   getitem params1 field = getitem params2 field).
  { intros field Hin. unfold getitem. now rewrite (Hagree field Hin). }
  destruct op; cbn [required_fields call] in *;
    unfold OrderManager.place_order, OrderManager.cancel_order,
      OrderManager.open_orders, AssetManager.account_balance;
    rewrite ?(Hget "symbol"), ?(Hget "volume"), ?(Hget "side"),
      ?(Hget "type"), ?(Hget "price"), ?(Hget "order_id"),
      ?(Hget "limit"), ?(Hget "symbols") by (cbn; auto 10);
    reflexivity.
Qed.

Lemma only_required_fields_are_read_witness :
  let w := mkWorld 1700000000000 (fun _ => inl "unreachable") [] in
  let params1 : gmap string pyval :=
    {[ "symbol" := PStr "enausdt"; "limit" := PInt 20 ]} in
  let params2 : gmap string pyval :=
    {[ "symbol" := PStr "enausdt"; "limit" := PInt 20;
       "offset" := PInt 100; "side" := PStr "BUY" ]} in
  call OpenOrders "key" "abc" params1 w = call OpenOrders "key" "abc" params2 w.
Proof.
  intros w params1 params2.
  apply (only_required_fields_are_read OpenOrders "key" "abc"
           params1 params2 w).
  intros field [<-|[<-|[]]]; reflexivity.
Defined.



(** ** The query string *)

Lemma all_chars_append (p : ascii -> bool) (a b : string) :
  all_chars p (a +:+ b) = all_chars p a && all_chars p b.
Proof.
  unfold all_chars. now rewrite list_ascii_of_append, forallb_app.
Qed.

Lemma ord_chr (n : Z) : 0 <= n < 256 -> ord (chr n) = n.
Proof.
  intros Hn. unfold ord, chr.
  rewrite N_ascii_embedding by (rewrite Z.mod_small by lia; lia).
  rewrite Z2N.id by (apply Z.mod_pos_bound; lia).
  now apply Z.mod_small.
Qed.

Lemma hex_upper_query_char (n : Z) : query_char (hex_upper n) = true.
Proof.
  unfold hex_upper.
  assert (H : forallb (fun c => query_char (upper_char c)) hexchars = true)
    by reflexivity.
  rewrite forallb_forall in H. apply H, hexdigit_in.
Qed.

Lemma quote_byte_chars (b : Z) : all_chars query_char (quote_byte b) = true.
Proof.
  unfold quote_byte.
  destruct (always_safe b) eqn:Hsafe.
  - unfold all_chars, char. cbn [list_ascii_of_string forallb].
    unfold query_char. rewrite ord_chr, Hsafe; [reflexivity|].
    unfold always_safe in Hsafe. lia.
  - destruct (b =? 32); [reflexivity|].
    unfold all_chars, char. cbn [list_ascii_of_string forallb].
    now rewrite !hex_upper_query_char.
Qed.

Lemma quote_plus_chars (s : string) : all_chars query_char (quote_plus s) = true.
Proof.
  unfold quote_plus. induction (encode_utf8 s) as [|b bs IH]; [reflexivity|].
  cbn [quote_bytes]. now rewrite all_chars_append, quote_byte_chars, IH.
Qed.

Lemma query_char_text (s : string) :
  all_chars query_char s = true -> all_chars query_text_char s = true.
Proof.
  unfold all_chars. rewrite !forallb_forall. intros H c Hc.
  unfold query_text_char. now rewrite (H c Hc).
Qed.

Lemma urlencode_chars (d : pydict) : all_chars query_text_char (urlencode d) = true.
Proof.
  unfold urlencode.
  assert (Hitem : forall kv, all_chars query_text_char (urlencode_item kv) = true).
  { intros kv. unfold urlencode_item.
    rewrite !all_chars_append, !(query_char_text _ (quote_plus_chars _)).
    reflexivity. }
  induction d as [|kv d IH]; [reflexivity|].
  destruct d as [|kv' d]; [apply Hitem|].
  change (join "&" (map urlencode_item (kv :: kv' :: d)))
    with (urlencode_item kv +:+ "&" +:+ join "&" (map urlencode_item (kv' :: d))).
  rewrite !all_chars_append, Hitem, IH. reflexivity.
Qed.

(** X13: the query a GET carries is made of unreserved characters (ASCII
    letters and digits, [_], [.], [-], [~]), of [%] and [+], and of the
    separators [=] and [&], whatever the names and values hold: a space,
    a slash, a [?] or an [&] of a value never reaches the URL as such. *)
Theorem get_query_is_url_safe
    (request_path : string) (body : pydict) (api_key api_secret : string)
    (w : World) :
  body <> [] ->
  exists (req : Request) (query : string),
    requests_of (trace (world_after
       (send_request "GET" request_path (Some body) api_key api_secret) w))
    = requests_of (trace w) ++ [req]
    /\ url req = BASE_URL +:+ request_path +:+ "?" +:+ query
    /\ all_chars query_text_char query = true.
Proof.
  intros Hne.
  exists (issued_request "GET" request_path (Some body) api_key api_secret
            (clock_ms w)), (urlencode body).
  split; [apply send_request_requests|].
  split; [|apply urlencode_chars].
  destruct body as [|kv body]; [contradiction|]. reflexivity.
Qed.

Lemma get_query_is_url_safe_witness :
  let w := mkWorld 1700000000000 (fun _ => inl "unreachable") [] in
  exists (req : Request) (query : string),
    requests_of (trace (world_after
       (send_request "GET" "/sapi/v1/openOrders"
          (Some [("symbol", PStr "ena/usdt & more?"); ("limit", PInt 20)])
          "key" "abc") w))
    = [req]
    /\ url req = BASE_URL +:+ "/sapi/v1/openOrders" +:+ "?" +:+ query
    /\ all_chars query_text_char query = true.
Proof.
  intros w.
  apply (get_query_is_url_safe "/sapi/v1/openOrders"
           [("symbol", PStr "ena/usdt & more?"); ("limit", PInt 20)]
           "key" "abc" w).
  discriminate.
Defined.

(** ** The timestamp in the signed text *)

(** X14: two runs of [generate_signature] with the same generator, method,
    path and body, whose clock readings differ, return different
    timestamps, and their signatures are the HMACs of two different byte
    strings: the two timestamps, each followed by one and the same text. *)
Theorem timestamps_separate_signed_messages
    (g : SignatureGenerator.t) (method request_path : string)
    (body : option pybody) (w1 w2 : World) (d1 d2 : signature_data) :
  clock_ms w1 <> clock_ms w2 ->
  result_of (SignatureGenerator.generate_signature g method request_path body) w1
  = Return d1 ->
  result_of (SignatureGenerator.generate_signature g method request_path body) w2
  = Return d2 ->
  timestamp d1 <> timestamp d2
  /\ exists rest : string,
       signature d1 = HMAC.hexdigest (SignatureGenerator.api_secret g)
                        (encode_utf8 (timestamp d1 +:+ rest))
       /\ signature d2 = HMAC.hexdigest (SignatureGenerator.api_secret g)
                           (encode_utf8 (timestamp d2 +:+ rest))
       /\ encode_utf8 (timestamp d1 +:+ rest)
          <> encode_utf8 (timestamp d2 +:+ rest).
Proof.
  intros Hne H1 H2. unfold result_of in H1, H2.
  rewrite generate_signature_run in H1, H2. cbn [fst] in H1, H2.
  injection H1 as <-. injection H2 as <-. cbn [timestamp signature].
  assert (Ht : str_int (clock_ms w1) <> str_int (clock_ms w2))
    by (intros E; apply Hne, str_int_inj, E).
  split; [exact Ht|].
  exists (upper method +:+ request_path +:+
          (if truthy body && String.eqb (upper method) "POST"
           then body_serialization body else EmptyString)).
  rewrite <- !sign_payload_layout.
  repeat split.
  intros E. apply encode_utf8_inj in E.
  rewrite !sign_payload_layout in E.
  apply Ht. eapply append_inv_tail. exact E.
Qed.

Lemma timestamps_separate_signed_messages_witness :
  let g := SignatureGenerator.init "key" "abc" in
  let w1 := mkWorld 1700000000000 (fun _ => inl "unreachable") [] in
  let w2 := mkWorld 1700000000001 (fun _ => inl "unreachable") [] in
  exists d1 d2 : signature_data,
    result_of (SignatureGenerator.generate_signature g "GET"
                 "/sapi/v1/account" None) w1 = Return d1
    /\ result_of (SignatureGenerator.generate_signature g "GET"
                    "/sapi/v1/account" None) w2 = Return d2
    /\ timestamp d1 <> timestamp d2.
Proof.
  intros g w1 w2. eexists. eexists.
  split; [reflexivity|]. split; [reflexivity|].
  apply (timestamps_separate_signed_messages g "GET" "/sapi/v1/account" None
           w1 w2 _ _ ltac:(cbn; lia) eq_refl eq_refl).
Defined.
